(** * Route access guard and navigation header of the Next.js dashboard

    Two pieces of the repository carry decision logic:

    - the NextAuth wiring: the [authorized] callback of [auth.ts] and the
      request callback of [middleware.ts];
    - the [Header] client component: a [useState] flag driving the mobile
      [Dialog], plus the [Disclosure] of the "Product" section.

    Paths are modelled as [string]; [String.prefix p s] is JavaScript's
    [s.startsWith(p)]. *)

From Stdlib Require Import String Ascii Bool.
From stdpp Require Import base option strings gmap fin_maps.

Local Open Scope string_scope.

(** ** Requests, URLs and responses *)

(** [session.user]: the fields the repository reads or writes. *)
Record User := mkUser {
  user_id : option string;
  user_email : option string;
}.

(** The session object; [user] is optional in NextAuth's [Session]. *)
Record Session := mkSession {
  user : option User;
}.

(** A URL reduced to the parts the guard touches. *)
Record URL := mkURL {
  origin : string;
  pathname : string;
  search : string;
}.

(** [new URL(path, base)] for an absolute-path reference [path]: the origin
    of [base] is kept, the path is replaced and the query is dropped. *)
Definition new_URL (path : string) (base : URL) : URL :=
  {| origin := origin base; pathname := path; search := "" |}.

(** The only responses built by the guard are redirects. *)
Inductive Response : Type :=
  | Response_redirect (location : URL).

(** The request handed to the middleware callback: [req.auth] is the
    session or [null], [req.nextUrl] the requested URL. *)
Record NextAuthRequest := mkRequest {
  auth : option Session;
  nextUrl : URL;
}.

(** [pages.signIn] of the NextAuth configuration. *)
Definition pages_signIn : string := "/login".

(** ** auth.ts: the [authorized] callback *)

(** What [authorized] returns: a boolean or a custom [Response]. *)
Inductive AuthorizedResult : Type :=
  | Authorized_bool (b : bool)
  | Authorized_response (r : Response).

(** [!!auth?.user] *)
Definition auth_user_truthy (a : option Session) : bool :=
  match a with
  | Some s => match user s with Some _ => true | None => false end
  | None => false
  end.

Definition authorized (a : option Session) (nextUrl : URL) : AuthorizedResult :=
  let isLoggedIn := auth_user_truthy a in
  let isOnDashboard := String.prefix "/dashboard" (pathname nextUrl) in
  if isOnDashboard then
    if isLoggedIn then Authorized_bool true
    else Authorized_bool false
  else if isLoggedIn then
    Authorized_response (Response_redirect (new_URL "/dashboard" nextUrl))
  else Authorized_bool true.

(** ** middleware.ts: the callback wrapped by [auth] *)

(** [!!req.auth] *)
Definition auth_truthy (a : option Session) : bool :=
  match a with Some _ => true | None => false end.

(** The callback returns a redirect response or nothing ([undefined], the
    request goes on to the page). *)
Definition middleware (req : NextAuthRequest) : option Response :=
  let nextUrl := nextUrl req in
  let isLoggedIn := auth_truthy (auth req) in
  let isOnDashboard := String.prefix "/dashboard" (pathname nextUrl) in
  let isOnLogin := String.prefix "/login" (pathname nextUrl) in
  if isOnDashboard && negb isLoggedIn then
    Some (Response_redirect (new_URL "/login" nextUrl))
  else if isOnLogin && isLoggedIn then
    Some (Response_redirect (new_URL "/dashboard" nextUrl))
  else None.

(** ** The route decision *)

Inductive RouteDecision : Type :=
  | Allow
  | DenyRedirectToLogin (target : string)
  | RedirectAwayFromLogin (target : string).

(** The middleware callback read as a decision on (session present, path):
    the same tests in the same order, each exit labelled with its
    decision. *)
Definition decide (sessionPresent : bool) (path : string) : RouteDecision :=
  let isLoggedIn := sessionPresent in
  let isOnDashboard := String.prefix "/dashboard" path in
  let isOnLogin := String.prefix "/login" path in
  if isOnDashboard && negb isLoggedIn then DenyRedirectToLogin "/login"
  else if isOnLogin && isLoggedIn then RedirectAwayFromLogin "/dashboard"
  else Allow.

(** The redirect target carried by a decision, if any. *)
Definition target_of (d : RouteDecision) : option string :=
  match d with
  | Allow => None
  | DenyRedirectToLogin t => Some t
  | RedirectAwayFromLogin t => Some t
  end.

(** The response the serving layer emits for a decision on a request for
    [url]. *)
Definition response_of (url : URL) (d : RouteDecision) : option Response :=
  match target_of d with
  | Some t => Some (Response_redirect (new_URL t url))
  | None => None
  end.

(** The [authorized] result read as a decision: [false] is the denial that
    NextAuth turns into a redirect to [pages.signIn]. *)
Definition decision_of_authorized (r : AuthorizedResult) : RouteDecision :=
  match r with
  | Authorized_bool true => Allow
  | Authorized_bool false => DenyRedirectToLogin pages_signIn
  | Authorized_response (Response_redirect u) => RedirectAwayFromLogin (pathname u)
  end.

(** ** middleware.ts: the exported middleware *)

(** [export default auth((req) => ...)]: NextAuth's wrapper resolves the
    session, calls [callbacks.authorized] of the configuration and, when
    that returns a [Response], answers with it without running the
    callback; on a boolean it runs the callback on the request. *)
Definition exported_middleware (req : NextAuthRequest) : option Response :=
  match authorized (auth req) (nextUrl req) with
  | Authorized_response r => Some r
  | Authorized_bool _ => middleware req
  end.

(** The exported middleware read as a decision on the request: the redirect
    of [authorized], or else what the callback decides. *)
Definition guard (req : NextAuthRequest) : RouteDecision :=
  match authorized (auth req) (nextUrl req) with
  | Authorized_response (Response_redirect u) =>
      RedirectAwayFromLogin (pathname u)
  | Authorized_bool _ =>
      decide (auth_truthy (auth req)) (pathname (nextUrl req))
  end.

(** ** Evaluation with exceptions *)

Inductive JSError : Type :=
  | TypeError.

(** How the evaluation of an expression ends: with a value, or by throwing. *)
Inductive Completion (A : Type) : Type :=
  | Normal (a : A)
  | Throw (e : JSError).

Arguments Normal {A} a.
Arguments Throw {A} e.

Definition bind {A B : Type} (c : Completion A) (k : A -> Completion B) :
    Completion B :=
  match c with
  | Normal a => k a
  | Throw e => Throw e
  end.

(** [a.user]: reading a property of [null] throws a [TypeError]. *)
Definition member_user (a : option Session) : Completion (option User) :=
  match a with
  | Some s => Normal (user s)
  | None => Throw TypeError
  end.

(** [a?.user]: [undefined] when [a] is [null], else the property read. *)
Definition optional_member_user (a : option Session) :
    Completion (option User) :=
  match a with
  | Some _ => member_user a
  | None => Normal None
  end.

(** [authorized], statement by statement. *)
Definition authorized_eval (a : option Session) (nextUrl : URL) :
    Completion AuthorizedResult :=
  bind (optional_member_user a) (fun usr =>
  let isLoggedIn := match usr with Some _ => true | None => false end in
  let isOnDashboard := String.prefix "/dashboard" (pathname nextUrl) in
  if isOnDashboard then
    if isLoggedIn then Normal (Authorized_bool true)
    else Normal (Authorized_bool false)
  else if isLoggedIn then
    Normal (Authorized_response
              (Response_redirect (new_URL "/dashboard" nextUrl)))
  else Normal (Authorized_bool true)).

(** The middleware callback: [req.auth] and [nextUrl.pathname] are reads on
    objects that are always there, so no step of it can throw. *)
Definition middleware_eval (req : NextAuthRequest) :
    Completion (option Response) :=
  let nextUrl := nextUrl req in
  let isLoggedIn := auth_truthy (auth req) in
  let isOnDashboard := String.prefix "/dashboard" (pathname nextUrl) in
  let isOnLogin := String.prefix "/login" (pathname nextUrl) in
  if isOnDashboard && negb isLoggedIn then
    Normal (Some (Response_redirect (new_URL "/login" nextUrl)))
  else if isOnLogin && isLoggedIn then
    Normal (Some (Response_redirect (new_URL "/dashboard" nextUrl)))
  else Normal None.

(** The exported middleware; an exception of either callback propagates. *)
Definition exported_middleware_eval (req : NextAuthRequest) :
    Completion (option Response) :=
  bind (authorized_eval (auth req) (nextUrl req)) (fun r =>
  match r with
  | Authorized_response resp => Normal (Some resp)
  | Authorized_bool _ => middleware_eval req
  end).

(** A signed-in session and the home page, for concrete runs. *)
Definition sample_session : Session :=
  {| user := Some {| user_id := Some "42"; user_email := None |} |}.

Definition home_url : URL :=
  {| origin := "http://localhost:3000"; pathname := "/"; search := "" |}.

(** A signed-in request for a page under the login path. *)
Definition login_help_request : NextAuthRequest :=
  {| auth := Some sample_session;
     nextUrl := {| origin := "http://localhost:3000";
                   pathname := "/login/help"; search := "" |} |}.

(** Signed-in requests for the design page and for the home page. *)
Definition design_request : NextAuthRequest :=
  {| auth := Some sample_session;
     nextUrl := {| origin := "http://localhost:3000";
                   pathname := "/design"; search := "" |} |}.

Definition home_request : NextAuthRequest :=
  {| auth := Some sample_session; nextUrl := home_url |}.

(** ** app/ui/header.tsx: the [Header] client component *)

(** The component's state during one mount: the [useState] flag that drives
    the mobile [Dialog], and the expanded flag held inside each
    [Disclosure], keyed by the section title. *)
Record HeaderState := mkHeaderState {
  mobileMenuOpen : bool;
  sections : gmap string bool;
}.

(** [useState(false)]; the one [Disclosure], "Product", starts collapsed. *)
Definition Header_mount : HeaderState :=
  {| mobileMenuOpen := false; sections := {["Product" := false]} |}.

(** A fresh navigation discards the instance and mounts a new one. *)
Definition remount (st : HeaderState) : HeaderState := Header_mount.

(** Every section collapsed, as freshly mounted disclosures are. *)
Definition collapse (m : gmap string bool) : gmap string bool :=
  (fun _ : bool => false) <$> m.

(** The setter of the [useState] flag.  The [Disclosure]s are children of
    [<Dialog open={mobileMenuOpen}>], which is given no [unmount={false}]
    and so renders them only while open: they keep their flags as long as
    the dialog stays open, and are collapsed anew whenever it is closed or
    opened from closed. *)
Definition setMobileMenuOpen (v : bool) (st : HeaderState) : HeaderState :=
  {| mobileMenuOpen := v;
     sections := if v && mobileMenuOpen st then sections st
                 else collapse (sections st) |}.

(** [<Dialog open={mobileMenuOpen}>] *)
Definition isOpen (st : HeaderState) : bool := mobileMenuOpen st.

(** Mobile menu button: [onClick → setMobileMenuOpen(true)]. *)
Definition openMenu (st : HeaderState) : HeaderState :=
  setMobileMenuOpen true st.

(** Close button: [onClick={() => setMobileMenuOpen(false)}]. *)
Definition closeMenu (st : HeaderState) : HeaderState :=
  setMobileMenuOpen false st.

(** [<Dialog onClose={setMobileMenuOpen}>]: the setter itself is the close
    handler; the dialog calls it with [false] on Escape and on a click
    outside the panel. *)
Definition Dialog_onClose (v : bool) (st : HeaderState) : HeaderState :=
  setMobileMenuOpen v st.

(** Modelled from the spec: [toggleSection(id)].  The source has no keyed
    toggle function: each [<Disclosure>] keeps its expanded flag inside the
    component library and flips it when its [DisclosureButton] is clicked.
    Following the spec, that flag is a table entry keyed by section id, the
    call flips the entry of [id], and an id that names no section is
    inert. *)
Definition toggleSection (id : string) (st : HeaderState) : HeaderState :=
  match sections st !! id with
  | Some expanded =>
      {| mobileMenuOpen := mobileMenuOpen st;
         sections := <[id := negb expanded]> (sections st) |}
  | None => st
  end.

(** What the user can do to a mounted header. *)
Inductive HeaderEvent : Type :=
  | MenuButtonClick
  | CloseButtonClick
  | EscapeKey
  | BackdropClick
  | DisclosureButtonClick (id : string).

Definition handle (e : HeaderEvent) (st : HeaderState) : HeaderState :=
  match e with
  | MenuButtonClick => openMenu st
  | CloseButtonClick => closeMenu st
  | EscapeKey => Dialog_onClose false st
  | BackdropClick => Dialog_onClose false st
  | DisclosureButtonClick id => toggleSection id st
  end.

(** The events wired to the open and close triggers. *)
Definition is_menu_trigger (e : HeaderEvent) : bool :=
  match e with
  | DisclosureButtonClick _ => false
  | _ => true
  end.

(** ** auth.ts: the [jwt] and [session] callbacks *)

(** The token handed to the callbacks: NextAuth's default claims. *)
Record JWT := mkJWT {
  jwt_name : option string;
  jwt_email : option string;
  jwt_picture : option string;
  sub : option string;
}.

(** Truthiness of an optional string: [undefined] and the empty string are
    falsy. *)
Definition string_truthy (o : option string) : bool :=
  match o with
  | Some s => negb (String.eqb s "")
  | None => false
  end.

(** [jwt({ token, user })]: [user] is only passed at sign-in. *)
Definition jwt (token : JWT) (u : option User) : JWT :=
  match u with
  | Some usr =>
      {| jwt_name := jwt_name token; jwt_email := jwt_email token;
         jwt_picture := jwt_picture token; sub := user_id usr |}
  | None => token
  end.

(** [session({ session, token })] *)
Definition session (s : Session) (token : JWT) : Session :=
  if string_truthy (sub token) then
    match user s with
    | Some usr =>
        {| user := Some {| user_id := sub token;
                           user_email := user_email usr |} |}
    | None => s
    end
  else s.

(** A later call of [jwt], without a user. *)
Definition jwt_refresh (token : JWT) : JWT := jwt token None.

(** ** app/login/page.tsx and app/ui/dashboard/sidenav.tsx *)

(** A page either renders or leaves through [redirect(...)]. *)
Inductive PageResult : Type :=
  | Render
  | Redirect (to : string).

(** [LoginPage]: [if (session) redirect('/dashboard')], else the sign-in
    form. *)
Definition LoginPage (s : option Session) : PageResult :=
  if auth_truthy s then Redirect "/dashboard" else Render.

(** [SideNav]: the "Signed in as" block with the sign-out button is rendered
    under [session?.user &&]; the value is the e-mail it shows. *)
Definition SideNav (s : option Session) : option (option string) :=
  match s with
  | Some se =>
      match user se with
      | Some usr => Some (user_email usr)
      | None => None
      end
  | None => None
  end.

(** ** middleware.ts: [config.matcher] *)

(** The fragment of JavaScript regular expressions the matcher uses. *)
Inductive regex : Type :=
  | Eps
  | Chr (c : ascii)
  | Dot
  | Cat (r1 r2 : regex)
  | Alt (r1 r2 : regex)
  | Star (r : regex)
  | NegLookahead (r : regex).

(** [.] matches any character but a line terminator.  A pathname is ASCII
    (anything else is percent-encoded), which leaves LF and CR. *)
Definition is_line_terminator (c : ascii) : bool :=
  Ascii.eqb c "010" || Ascii.eqb c "013".

(** Iteration of [r*]: stop here, or match [r] once more and go on; the
    fuel bounds the number of rounds by the length of the input. *)
Fixpoint star_loop (step : string -> (string -> bool) -> bool)
    (k : string -> bool) (fuel : nat) (s : string) : bool :=
  k s ||
  match fuel with
  | O => false
  | S fuel' => step s (fun s' => star_loop step k fuel' s')
  end.

(** Backtracking matcher: [accept r s k] holds when [r] matches a prefix of
    [s] whose remainder satisfies the continuation [k]. *)
Fixpoint accept (r : regex) (s : string) (k : string -> bool) : bool :=
  match r with
  | Eps => k s
  | Chr c =>
      match s with
      | String d s' => if Ascii.eqb c d then k s' else false
      | EmptyString => false
      end
  | Dot =>
      match s with
      | String d s' => if is_line_terminator d then false else k s'
      | EmptyString => false
      end
  | Cat r1 r2 => accept r1 s (fun s' => accept r2 s' k)
  | Alt r1 r2 => accept r1 s k || accept r2 s k
  | Star r' => star_loop (accept r') k (String.length s) s
  | NegLookahead r' => negb (accept r' s (fun _ => true)) && k s
  end.

(** A literal run of characters. *)
Fixpoint Str (p : string) : regex :=
  match p with
  | EmptyString => Eps
  | String c p' => Cat (Chr c) (Str p')
  end.

Definition is_empty_string (s : string) : bool :=
  match s with
  | EmptyString => true
  | String _ _ => false
  end.

(** A route pattern is matched against the whole pathname. *)
Definition regex_test (r : regex) (s : string) : bool :=
  accept r s is_empty_string.

(** The one entry of [config.matcher]: a slash, then the group
    [(?!api|_next/static|_next/image|favicon.ico)] followed by dot-star. *)
Definition matcher_pattern : regex :=
  Cat (Chr "/")
    (Cat (NegLookahead
            (Alt (Str "api")
               (Alt (Str "_next/static")
                  (Alt (Str "_next/image")
                     (Cat (Str "favicon") (Cat Dot (Str "ico")))))))
         (Star Dot)).

Definition matcher (path : string) : bool :=
  regex_test matcher_pattern path.

(** The exported middleware runs on the routes the matcher selects; any
    other request goes straight on. *)
Definition run_middleware (req : NextAuthRequest) : option Response :=
  if matcher (pathname (nextUrl req)) then exported_middleware req else None.

(** The remainder of [s] after the literal prefix [p]. *)
Fixpoint strip_prefix (p s : string) : option string :=
  match p with
  | EmptyString => Some s
  | String c p' =>
      match s with
      | String d s' => if Ascii.eqb c d then strip_prefix p' s' else None
      | EmptyString => None
      end
  end.

Fixpoint no_line_terminator (s : string) : bool :=
  match s with
  | EmptyString => true
  | String c s' => negb (is_line_terminator c) && no_line_terminator s'
  end.

(** The lookahead of the matcher, read on the text after the leading
    slash: one of the three literal prefixes, or "favicon", any one
    character, "ico". *)
Definition exempt (rest : string) : bool :=
  String.prefix "api" rest
  || String.prefix "_next/static" rest
  || String.prefix "_next/image" rest
  || match strip_prefix "favicon" rest with
     | Some (String c tail) =>
         negb (is_line_terminator c) && String.prefix "ico" tail
     | _ => false
     end.

(** ** Runs of header events *)

Definition run (es : list HeaderEvent) (st : HeaderState) : HeaderState :=
  fold_left (fun st' e => handle e st') es st.

(** The events that close the dialog. *)
Definition is_close_trigger (e : HeaderEvent) : bool :=
  match e with
  | CloseButtonClick | EscapeKey | BackdropClick => true
  | _ => false
  end.

(** Concrete values for runs of the callbacks. *)
Definition sample_token : JWT :=
  {| jwt_name := Some "Ada"; jwt_email := Some "ada@example.com";
     jwt_picture := None; sub := None |}.

Definition sample_user : User :=
  {| user_id := Some "42"; user_email := Some "ada@example.com" |}.

Definition userless_session : Session := {| user := None |}.

Definition login_url : URL :=
  {| origin := "http://localhost:3000"; pathname := "/login";
     search := "?from=mail" |}.

Definition invoices_request : NextAuthRequest :=
  {| auth := None;
     nextUrl := {| origin := "http://localhost:3000";
                   pathname := "/dashboard/invoices";
                   search := "?page=2" |} |}.

(** ** Basic facts about the path tests *)

Lemma middleware_decide (req : NextAuthRequest) :
  middleware req =
  response_of (nextUrl req)
    (decide (auth_truthy (auth req)) (pathname (nextUrl req))).
Proof.
  unfold middleware, decide, response_of.
  destruct (String.prefix "/dashboard" (pathname (nextUrl req)));
    destruct (String.prefix "/login" (pathname (nextUrl req)));
    destruct (auth_truthy (auth req)); reflexivity.
Qed.

(** [startsWith] peels one character at a time. *)
Lemma prefix_String_inv (c : ascii) (p s : string) :
  String.prefix (String c p) s = true ->
  exists s', s = String c s' /\ String.prefix p s' = true.
Proof.
  destruct s as [|d s']; cbn [String.prefix]; [discriminate|].
  destruct (ascii_dec c d) as [->|]; [|discriminate].
  intros H. exists s'. split; [reflexivity|exact H].
Qed.

Lemma prefix_String_ne (c d : ascii) (p s : string) :
  c <> d -> String.prefix (String c p) (String d s) = false.
Proof.
  intros Hne. cbn [String.prefix].
  destruct (ascii_dec c d); [contradiction|reflexivity].
Qed.

(** A path cannot start with both prefixes: they differ at the second
    character. *)
Lemma dashboard_not_login (path : string) :
  String.prefix "/dashboard" path = true -> String.prefix "/login" path = false.
Proof.
  intros H.
  apply prefix_String_inv in H as (s1 & -> & H).
  apply prefix_String_inv in H as (s2 & -> & _).
  cbn [String.prefix].
  destruct (ascii_dec "/" "/"); [|reflexivity].
  apply prefix_String_ne. discriminate.
Qed.

(** ** The guard on concrete requests *)

Example decide_dashboard_anonymous :
  decide false "/dashboard" = DenyRedirectToLogin "/login".
Proof. reflexivity. Qed.

Example decide_dashboard_session : decide true "/dashboard" = Allow.
Proof. reflexivity. Qed.

Example decide_login_session :
  decide true "/login" = RedirectAwayFromLogin "/dashboard".
Proof. reflexivity. Qed.

Example decide_login_anonymous : decide false "/login" = Allow.
Proof. reflexivity. Qed.

Example decide_home_session : decide true "/" = Allow.
Proof. reflexivity. Qed.

Example decide_dashboard_subpage :
  decide false "/dashboard/invoices" = DenyRedirectToLogin "/login".
Proof. reflexivity. Qed.

(** ** Paths outside the protected area *)

Section Unprotected.

Variable path : string.
Hypothesis Hout : String.prefix "/dashboard" path = false.

Lemma decide_anonymous_outside : decide false path = Allow.
Proof.
  unfold decide. rewrite Hout.
  destruct (String.prefix "/login" path); reflexivity.
Qed.

Lemma decide_session_outside :
  decide true path =
  if String.prefix "/login" path then RedirectAwayFromLogin "/dashboard"
  else Allow.
Proof.
  unfold decide. rewrite Hout.
  destruct (String.prefix "/login" path); reflexivity.
Qed.

End Unprotected.

(** The login test of the callback is [startsWith]: a path under "/login"
    that is not the login path itself is redirected when a session is
    present. *)
Lemma decide_login_subpath_not_allow :
  String.prefix "/dashboard" "/login/help" = false /\
  "/login/help" <> "/login" /\
  decide true "/login/help" = RedirectAwayFromLogin "/dashboard" /\
  decide true "/login/help" <> Allow /\
  middleware login_help_request =
    Some (Response_redirect
            (new_URL "/dashboard" (nextUrl login_help_request))).
Proof.
  repeat split; try reflexivity; discriminate.
Qed.

(** The callback taken alone: for every path that does not begin with
    "/dashboard", [decide] returns [Allow] unless a session is present and
    the path begins with "/login". *)
Theorem decide_outside_allow (sessionPresent : bool) (path : string) :
  String.prefix "/dashboard" path = false ->
  sessionPresent && String.prefix "/login" path = false ->
  decide sessionPresent path = Allow.
Proof.
  intros Hout Hlogin. destruct sessionPresent.
  - rewrite (decide_session_outside path Hout).
    simpl in Hlogin. rewrite Hlogin. reflexivity.
  - exact (decide_anonymous_outside path Hout).
Qed.

Lemma decide_outside_allow_witness :
  decide true "/design" = Allow /\ decide false "/login/help" = Allow.
Proof.
  split.
  - apply (decide_outside_allow true "/design"); reflexivity.
  - apply (decide_outside_allow false "/login/help"); reflexivity.
Defined.

(** ** Paths inside the protected area *)

(** C2: on every path that begins with "/dashboard", [decide] answers
    [DenyRedirectToLogin "/login"] without a session and [Allow] with
    one. *)
Theorem decide_protected (path : string) :
  String.prefix "/dashboard" path = true ->
  decide false path = DenyRedirectToLogin "/login" /\
  decide true path = Allow.
Proof.
  intros Hin. unfold decide.
  rewrite Hin, (dashboard_not_login path Hin). split; reflexivity.
Qed.

Lemma decide_protected_witness :
  decide false "/dashboard/customers" = DenyRedirectToLogin "/login" /\
  decide true "/dashboard/customers" = Allow.
Proof.
  apply (decide_protected "/dashboard/customers"). reflexivity.
Defined.

(** The [authorized] callback agrees on the protected area: it denies
    ([false], which NextAuth answers with a redirect to [pages.signIn]) or
    lets the request through. *)
Lemma authorized_protected (a : option Session) (url : URL) :
  String.prefix "/dashboard" (pathname url) = true ->
  authorized a url = Authorized_bool (auth_user_truthy a) /\
  decision_of_authorized (authorized a url) =
    if auth_user_truthy a then Allow else DenyRedirectToLogin "/login".
Proof.
  intros Hin. unfold authorized. rewrite Hin.
  destruct (auth_user_truthy a); split; reflexivity.
Qed.

(** ** The login page *)

(** The callback's redirect away from login is not confined to the path
    "/login". *)
Lemma decide_redirect_off_login_path :
  "/login/reset" <> "/login" /\
  decide true "/login/reset" = RedirectAwayFromLogin "/dashboard".
Proof.
  split; [discriminate|reflexivity].
Qed.

(** The callback taken alone: [decide] returns
    [RedirectAwayFromLogin "/dashboard"] exactly when a session is present
    and the path begins with "/login". *)
Theorem decide_login (sessionPresent : bool) (path : string) :
  (decide sessionPresent path = RedirectAwayFromLogin "/dashboard" <->
   String.prefix "/login" path = true /\ sessionPresent = true) /\
  decide true "/login" = RedirectAwayFromLogin "/dashboard" /\
  decide false "/login" = Allow.
Proof.
  split; [|split; reflexivity].
  unfold decide.
  destruct (String.prefix "/dashboard" path) eqn:Hd.
  - rewrite (dashboard_not_login path Hd).
    destruct sessionPresent; simpl; split;
      try discriminate; intros [? ?]; discriminate.
  - destruct (String.prefix "/login" path), sessionPresent; simpl; split;
      try discriminate; try (intros [? ?]; discriminate); auto.
Qed.

(** ** Following a redirect *)

(** C4: when [decide] answers with a redirect, deciding again on the
    redirect target (same session) answers [Allow]; the two targets are
    "/login" without a session and "/dashboard" with one, so no redirect
    chain arises. *)
Theorem decide_redirect_target_allow
    (sessionPresent : bool) (path t : string) :
  target_of (decide sessionPresent path) = Some t ->
  decide sessionPresent t = Allow /\
  decide false "/login" = Allow /\
  decide true "/dashboard" = Allow.
Proof.
  intros Ht. split; [|split; reflexivity].
  unfold decide in Ht.
  destruct (String.prefix "/dashboard" path), (String.prefix "/login" path),
    sessionPresent; simpl in Ht; try discriminate;
    injection Ht as <-; reflexivity.
Qed.

Lemma decide_redirect_target_allow_witness :
  decide false "/login" = Allow /\
  decide false "/login" = Allow /\
  decide true "/dashboard" = Allow.
Proof.
  apply (decide_redirect_target_allow false "/dashboard/invoices" "/login").
  reflexivity.
Defined.

(** The same holds for the [authorized] callback followed through its own
    redirects. *)
Lemma authorized_redirect_target_allow
    (a : option Session) (url : URL) (t : string) :
  target_of (decision_of_authorized (authorized a url)) = Some t ->
  decision_of_authorized (authorized a (new_URL t url)) = Allow.
Proof.
  unfold authorized.
  destruct (String.prefix "/dashboard" (pathname url)), (auth_user_truthy a);
    simpl; try discriminate; intros Ht; injection Ht as <-; reflexivity.
Qed.

(** ** The [authorized] callback outside the protected area *)

(** C6: when the user is logged in, [authorized] answers every path that
    does not begin with "/dashboard" with a redirect to "/dashboard". *)
Theorem authorized_session_outside_redirects
    (a : option Session) (url : URL) :
  auth_user_truthy a = true ->
  String.prefix "/dashboard" (pathname url) = false ->
  authorized a url =
    Authorized_response (Response_redirect (new_URL "/dashboard" url)).
Proof.
  intros Hin Hout. unfold authorized. rewrite Hin, Hout. reflexivity.
Qed.

Lemma authorized_session_outside_redirects_witness :
  authorized (Some sample_session) home_url =
    Authorized_response (Response_redirect (new_URL "/dashboard" home_url)).
Proof.
  apply (authorized_session_outside_redirects (Some sample_session) home_url);
    reflexivity.
Defined.

(** ** The mobile menu flag *)

Lemma isOpen_setMobileMenuOpen (v : bool) (st : HeaderState) :
  isOpen (setMobileMenuOpen v st) = v.
Proof. reflexivity. Qed.

Lemma sections_setMobileMenuOpen (v : bool) (st : HeaderState) :
  sections (setMobileMenuOpen v st) =
  if v && isOpen st then sections st else collapse (sections st).
Proof. reflexivity. Qed.

Lemma collapse_lookup (m : gmap string bool) (id : string) :
  collapse m !! id = (fun _ : bool => false) <$> (m !! id).
Proof. unfold collapse. apply lookup_fmap. Qed.

Lemma collapse_collapse (m : gmap string bool) :
  collapse (collapse m) = collapse m.
Proof.
  apply map_eq. intros id. rewrite !collapse_lookup.
  destruct (m !! id); reflexivity.
Qed.

Lemma isOpen_toggleSection (id : string) (st : HeaderState) :
  isOpen (toggleSection id st) = isOpen st.
Proof.
  unfold toggleSection. destruct (sections st !! id); reflexivity.
Qed.

Lemma HeaderState_eq (st st' : HeaderState) :
  mobileMenuOpen st = mobileMenuOpen st' ->
  sections st = sections st' ->
  st = st'.
Proof.
  destruct st, st'; simpl; intros -> ->; reflexivity.
Qed.

(** C7: a mounted header starts closed; [openMenu] sets [isOpen] from any
    state and a following [closeMenu] clears it; every event sets the flag
    this way when it is an open or close trigger and leaves it alone
    otherwise, so an event that changes the flag is one of the triggers. *)
Theorem menu_flag_transitions (st : HeaderState) (e : HeaderEvent) :
  isOpen Header_mount = false /\
  isOpen (remount st) = false /\
  isOpen (openMenu st) = true /\
  isOpen (closeMenu (openMenu st)) = false /\
  isOpen (handle e st) =
    match e with
    | MenuButtonClick => true
    | CloseButtonClick | EscapeKey | BackdropClick => false
    | DisclosureButtonClick _ => isOpen st
    end /\
  is_menu_trigger e || Bool.eqb (isOpen (handle e st)) (isOpen st) = true.
Proof.
  repeat split; try reflexivity.
  - destruct e; try reflexivity. apply isOpen_toggleSection.
  - destruct e; try reflexivity. simpl.
    rewrite isOpen_toggleSection. apply Bool.eqb_reflx.
Qed.

(** ** Section disclosure *)

Lemma toggleSection_known (id : string) (st : HeaderState) (b : bool) :
  sections st !! id = Some b ->
  toggleSection id st =
    {| mobileMenuOpen := mobileMenuOpen st;
       sections := <[id := negb b]> (sections st) |}.
Proof.
  intros Hid. unfold toggleSection. rewrite Hid. reflexivity.
Qed.

Lemma toggleSection_unknown (id : string) (st : HeaderState) :
  sections st !! id = None -> toggleSection id st = st.
Proof.
  intros Hid. unfold toggleSection. rewrite Hid. reflexivity.
Qed.

Lemma toggleSection_twice (id : string) (st : HeaderState) :
  toggleSection id (toggleSection id st) = st.
Proof.
  destruct (sections st !! id) as [b|] eqn:Hid.
  - rewrite (toggleSection_known id st b Hid).
    erewrite toggleSection_known by (simpl; apply lookup_insert_eq).
    apply HeaderState_eq; simpl; [reflexivity|].
    rewrite insert_insert_eq, negb_involutive.
    apply insert_id, Hid.
  - rewrite !(toggleSection_unknown id st Hid). reflexivity.
Qed.

(** C8: for a known section, [toggleSection] flips its flag, and a second
    call restores the flag, and with it the whole state. *)
Theorem toggleSection_involution
    (id : string) (st : HeaderState) (expanded : bool) :
  sections st !! id = Some expanded ->
  sections (toggleSection id st) !! id = Some (negb expanded) /\
  sections (toggleSection id (toggleSection id st)) !! id = Some expanded /\
  toggleSection id (toggleSection id st) = st.
Proof.
  intros Hid. rewrite toggleSection_twice. split; [|split]; auto.
  rewrite (toggleSection_known id st expanded Hid). simpl.
  apply lookup_insert_eq.
Qed.

Lemma toggleSection_involution_witness :
  sections (toggleSection "Product" Header_mount) !! "Product" = Some true /\
  sections (toggleSection "Product" (toggleSection "Product" Header_mount))
    !! "Product" = Some false /\
  toggleSection "Product" (toggleSection "Product" Header_mount) =
    Header_mount.
Proof.
  apply (toggleSection_involution "Product" Header_mount false).
  vm_compute. reflexivity.
Defined.

(** C9: [toggleSection] on an id that names no section returns the state
    unchanged: the menu flag and every section flag. *)
Theorem toggleSection_unknown_noop (id : string) (st : HeaderState) :
  sections st !! id = None ->
  toggleSection id st = st /\
  isOpen (toggleSection id st) = isOpen st /\
  sections (toggleSection id st) = sections st.
Proof.
  intros Hid. rewrite (toggleSection_unknown id st Hid). auto.
Qed.

Lemma toggleSection_unknown_noop_witness :
  toggleSection "Company" Header_mount = Header_mount /\
  isOpen (toggleSection "Company" Header_mount) = isOpen Header_mount /\
  sections (toggleSection "Company" Header_mount) = sections Header_mount.
Proof.
  apply (toggleSection_unknown_noop "Company" Header_mount).
  vm_compute. reflexivity.
Defined.

(** ** The matcher pattern *)

Lemma prefix_strip_prefix (p s : string) :
  String.prefix p s =
  match strip_prefix p s with Some _ => true | None => false end.
Proof.
  revert s. induction p as [|c p IH]; intros s.
  - destruct s; reflexivity.
  - destruct s as [|d s]; cbn [String.prefix strip_prefix]; [reflexivity|].
    destruct (ascii_dec c d) as [->|Hne].
    + rewrite Ascii.eqb_refl. apply IH.
    + apply Ascii.eqb_neq in Hne. rewrite Hne. reflexivity.
Qed.

Lemma strip_prefix_append (p s rest : string) :
  strip_prefix p s = Some rest <-> s = p ++ rest.
Proof.
  revert s. induction p as [|c p IH]; intros s; cbn [strip_prefix append].
  - split; [intros [= ->]; reflexivity | intros ->; reflexivity].
  - destruct s as [|d s].
    + split; discriminate.
    + destruct (Ascii.eqb c d) eqn:Hcd.
      * apply Ascii.eqb_eq in Hcd as ->. rewrite IH.
        split; [intros ->; reflexivity | intros [= ->]; reflexivity].
      * apply Ascii.eqb_neq in Hcd.
        split; [discriminate | intros [= <- _]; contradiction].
Qed.

Lemma prefix_append (p s : string) :
  String.prefix p s = true <-> exists rest, s = p ++ rest.
Proof.
  rewrite prefix_strip_prefix. split.
  - destruct (strip_prefix p s) as [rest|] eqn:Hs; [|discriminate].
    intros _. exists rest. apply strip_prefix_append, Hs.
  - intros [rest Hrest]. apply strip_prefix_append in Hrest.
    rewrite Hrest. reflexivity.
Qed.

(** A literal matches exactly when it is a prefix; the continuation sees
    the remainder. *)
Lemma accept_Str (p s : string) (k : string -> bool) :
  accept (Str p) s k =
  match strip_prefix p s with Some rest => k rest | None => false end.
Proof.
  revert s. induction p as [|c p IH]; intros s; cbn [Str accept strip_prefix].
  - reflexivity.
  - destruct s as [|d s]; [reflexivity|].
    destruct (Ascii.eqb c d); [apply IH | reflexivity].
Qed.

Lemma accept_Str_prefix (p s : string) :
  accept (Str p) s (fun _ => true) = String.prefix p s.
Proof.
  rewrite accept_Str, prefix_strip_prefix. reflexivity.
Qed.

(** Dot-star up to the end of the input: every character must be matched
    by the dot. *)
Lemma star_Dot_to_end (s : string) (fuel : nat) :
  String.length s <= fuel ->
  star_loop (accept Dot) is_empty_string fuel s = no_line_terminator s.
Proof.
  revert fuel. induction s as [|c s IH]; intros fuel Hfuel.
  - destruct fuel; reflexivity.
  - destruct fuel as [|fuel]; [simpl in Hfuel; lia|].
    cbn [star_loop is_empty_string orb accept no_line_terminator].
    destruct (is_line_terminator c); [reflexivity|].
    simpl in Hfuel. apply IH. lia.
Qed.

Lemma lookahead_exempt (rest : string) :
  accept
    (Alt (Str "api")
       (Alt (Str "_next/static")
          (Alt (Str "_next/image")
             (Cat (Str "favicon") (Cat Dot (Str "ico"))))))
    rest (fun _ => true) = exempt rest.
Proof.
  unfold exempt. cbn [accept].
  rewrite !accept_Str_prefix, !orb_assoc. f_equal.
  rewrite accept_Str.
  destruct (strip_prefix "favicon" rest) as [[|c tail]|]; try reflexivity.
  destruct (is_line_terminator c); [reflexivity|].
  apply accept_Str_prefix.
Qed.

(** The pattern run on a pathname that starts with a slash. *)
Lemma matcher_slash (rest : string) :
  matcher (String "/" rest) = negb (exempt rest) && no_line_terminator rest.
Proof.
  unfold matcher, regex_test, matcher_pattern.
  cbn [accept]. rewrite Ascii.eqb_refl.
  rewrite <- (lookahead_exempt rest). cbn [accept].
  f_equal. apply star_Dot_to_end. lia.
Qed.

Lemma matcher_no_slash (path : string) :
  String.prefix "/" path = false -> matcher path = false.
Proof.
  destruct path as [|c rest]; [reflexivity|].
  cbn [String.prefix]. destruct (ascii_dec "/" c) as [<-|Hne].
  - destruct rest; discriminate.
  - intros _. unfold matcher, regex_test, matcher_pattern. cbn [accept].
    apply Ascii.eqb_neq in Hne. rewrite Hne. reflexivity.
Qed.

Lemma prefix_String_same (c : ascii) (p s : string) :
  String.prefix (String c p) (String c s) = String.prefix p s.
Proof.
  cbn [String.prefix]. destruct (ascii_dec c c); [reflexivity|contradiction].
Qed.

(** X1: the pattern selects exactly the pathnames that start with a slash,
    have no line terminator after it, and whose text after the slash does
    not open with one of the exempt prefixes. *)
Theorem matcher_characterised (path : string) :
  matcher path = true <->
  exists rest,
    path = String "/" rest /\
    exempt rest = false /\
    no_line_terminator rest = true.
Proof.
  split.
  - intros Hm. destruct (String.prefix "/" path) eqn:Hs.
    + apply prefix_String_inv in Hs as (rest & -> & _).
      rewrite matcher_slash in Hm. apply andb_true_iff in Hm as [He Hn].
      exists rest. apply negb_true_iff in He. auto.
    + rewrite (matcher_no_slash path Hs) in Hm. discriminate.
  - intros (rest & -> & He & Hn).
    rewrite matcher_slash, He, Hn. reflexivity.
Qed.

(** X2: every pathname under "/dashboard" or "/login" is selected by the
    matcher, so the exported middleware decides there.  Under "/dashboard"
    an anonymous request is answered with a redirect to "/login" and a
    request with a session goes through; under "/login" a request with a
    session is answered with a redirect to "/dashboard" and an anonymous
    one goes through. *)
Theorem guarded_routes_run_middleware (req : NextAuthRequest) :
  String.prefix "/dashboard" (pathname (nextUrl req))
  || String.prefix "/login" (pathname (nextUrl req)) = true ->
  no_line_terminator (pathname (nextUrl req)) = true ->
  matcher (pathname (nextUrl req)) = true /\
  run_middleware req =
    if String.prefix "/dashboard" (pathname (nextUrl req)) then
      if auth_truthy (auth req) then None
      else Some (Response_redirect (new_URL "/login" (nextUrl req)))
    else
      if auth_truthy (auth req) then
        Some (Response_redirect (new_URL "/dashboard" (nextUrl req)))
      else None.
Proof.
  intros Hp Hn. unfold run_middleware.
  assert (Hm : matcher (pathname (nextUrl req)) = true).
  { apply orb_true_iff in Hp as [Hp|Hp];
      apply prefix_append in Hp as [tail Hp];
      rewrite Hp in Hn |- *;
      cbv beta iota fix delta [String.append] in Hn |- *;
      rewrite matcher_slash; apply andb_true_iff; split;
        try reflexivity;
        cbn [no_line_terminator] in Hn;
        apply andb_true_iff in Hn as [_ Hn]; exact Hn. }
  rewrite Hm. split; [reflexivity|].
  unfold exported_middleware, authorized, middleware, auth_user_truthy.
  destruct (String.prefix "/dashboard" (pathname (nextUrl req))) eqn:Hd.
  - rewrite (dashboard_not_login _ Hd).
    destruct (auth req) as [s|]; [destruct (user s)|]; reflexivity.
  - simpl in Hp. rewrite Hp.
    destruct (auth req) as [s|]; [destruct (user s)|]; reflexivity.
Qed.

Lemma guarded_routes_run_middleware_witness :
  matcher (pathname (nextUrl invoices_request)) = true /\
  run_middleware invoices_request =
    if String.prefix "/dashboard" (pathname (nextUrl invoices_request)) then
      if auth_truthy (auth invoices_request) then None
      else Some (Response_redirect
                   (new_URL "/login" (nextUrl invoices_request)))
    else
      if auth_truthy (auth invoices_request) then
        Some (Response_redirect
                (new_URL "/dashboard" (nextUrl invoices_request)))
      else None.
Proof.
  apply (guarded_routes_run_middleware invoices_request); reflexivity.
Defined.

(** X3: a pathname that opens with "/api", "/_next/static" or
    "/_next/image" is not selected, whatever follows the prefix, so such a
    request is never redirected, with or without a session. *)
Theorem exempt_routes_skip_middleware (req : NextAuthRequest) :
  String.prefix "/api" (pathname (nextUrl req))
  || String.prefix "/_next/static" (pathname (nextUrl req))
  || String.prefix "/_next/image" (pathname (nextUrl req)) = true ->
  matcher (pathname (nextUrl req)) = false /\
  run_middleware req = None.
Proof.
  intros Hp. unfold run_middleware.
  assert (Hm : matcher (pathname (nextUrl req)) = false).
  { destruct (String.prefix "/" (pathname (nextUrl req))) eqn:Hs.
    - apply prefix_String_inv in Hs as (rest & Hrest & _).
      rewrite Hrest in Hp |- *. rewrite !prefix_String_same in Hp.
      rewrite matcher_slash. unfold exempt. rewrite Hp. reflexivity.
    - apply matcher_no_slash, Hs. }
  rewrite Hm. split; reflexivity.
Qed.

Lemma exempt_routes_skip_middleware_witness :
  matcher "/api/auth/callback/google" = false /\
  run_middleware
    {| auth := None;
       nextUrl := {| origin := "http://localhost:3000";
                     pathname := "/api/auth/callback/google";
                     search := "" |} |} = None.
Proof.
  apply (exempt_routes_skip_middleware
           {| auth := None;
              nextUrl := {| origin := "http://localhost:3000";
                            pathname := "/api/auth/callback/google";
                            search := "" |} |}).
  reflexivity.
Defined.

(** ** Where the middleware sends a request *)

(** X4: a redirect issued by the middleware stays on the origin of the
    request, carries no query string, goes to "/dashboard" when a session
    is present and to "/login" otherwise, and never points back at the
    requested path. *)
Theorem middleware_redirect_location (req : NextAuthRequest) (u : URL) :
  middleware req = Some (Response_redirect u) ->
  origin u = origin (nextUrl req) /\
  search u = "" /\
  pathname u = (if auth_truthy (auth req) then "/dashboard" else "/login") /\
  pathname u <> pathname (nextUrl req).
Proof.
  unfold middleware.
  destruct (String.prefix "/dashboard" (pathname (nextUrl req))) eqn:Hd.
  - rewrite (dashboard_not_login _ Hd).
    destruct (auth_truthy (auth req)); simpl; [discriminate|].
    intros [= <-]. repeat split. simpl. intros Heq.
    rewrite <- Heq in Hd. discriminate.
  - destruct (String.prefix "/login" (pathname (nextUrl req))) eqn:Hl,
      (auth_truthy (auth req)); simpl; try discriminate.
    intros [= <-]. repeat split. simpl. intros Heq.
    rewrite <- Heq in Hl. discriminate.
Qed.

Lemma middleware_redirect_location_witness :
  origin (new_URL "/login" (nextUrl invoices_request)) =
    origin (nextUrl invoices_request) /\
  search (new_URL "/login" (nextUrl invoices_request)) = "" /\
  pathname (new_URL "/login" (nextUrl invoices_request)) =
    (if auth_truthy (auth invoices_request) then "/dashboard" else "/login") /\
  pathname (new_URL "/login" (nextUrl invoices_request)) <>
    pathname (nextUrl invoices_request).
Proof.
  apply (middleware_redirect_location invoices_request
           (new_URL "/login" (nextUrl invoices_request))).
  reflexivity.
Defined.

(** ** The two guards side by side *)

(** X5: the two callbacks compared as functions.  When the session, if
    any, has a user, [authorized] and the callback of middleware.ts reach
    the same decision exactly on the paths under "/dashboard" or "/login"
    and on anonymous requests.  For a signed-in request on any other path
    [authorized] returns a redirect to "/dashboard" and the callback alone
    returns nothing; the exported middleware, which asks [authorized]
    first, answers with that redirect. *)
Theorem authorized_agrees_with_middleware (a : option Session) (url : URL) :
  auth_truthy a = auth_user_truthy a ->
  (decision_of_authorized (authorized a url) =
     decide (auth_truthy a) (pathname url) <->
   String.prefix "/dashboard" (pathname url)
   || String.prefix "/login" (pathname url)
   || negb (auth_user_truthy a) = true) /\
  (String.prefix "/dashboard" (pathname url)
   || String.prefix "/login" (pathname url)
   || negb (auth_user_truthy a) = false ->
   authorized a url =
     Authorized_response (Response_redirect (new_URL "/dashboard" url)) /\
   middleware {| auth := a; nextUrl := url |} = None /\
   exported_middleware {| auth := a; nextUrl := url |} =
     Some (Response_redirect (new_URL "/dashboard" url))).
Proof.
  intros Hu.
  unfold exported_middleware, authorized, middleware, decide. simpl.
  rewrite Hu.
  destruct (String.prefix "/dashboard" (pathname url)) eqn:Hd.
  - rewrite (dashboard_not_login _ Hd).
    destruct (auth_user_truthy a); simpl; split;
      try discriminate; split; auto.
  - destruct (String.prefix "/login" (pathname url)),
      (auth_user_truthy a); simpl; split;
      try discriminate; try (split; auto; discriminate); auto.
Qed.

Lemma authorized_agrees_with_middleware_witness :
  (decision_of_authorized
     (authorized (auth design_request) (nextUrl design_request)) =
     decide (auth_truthy (auth design_request))
       (pathname (nextUrl design_request)) <->
   String.prefix "/dashboard" (pathname (nextUrl design_request))
   || String.prefix "/login" (pathname (nextUrl design_request))
   || negb (auth_user_truthy (auth design_request)) = true) /\
  (String.prefix "/dashboard" (pathname (nextUrl design_request))
   || String.prefix "/login" (pathname (nextUrl design_request))
   || negb (auth_user_truthy (auth design_request)) = false ->
   authorized (auth design_request) (nextUrl design_request) =
     Authorized_response
       (Response_redirect (new_URL "/dashboard" (nextUrl design_request))) /\
   middleware {| auth := auth design_request;
                 nextUrl := nextUrl design_request |} = None /\
   exported_middleware {| auth := auth design_request;
                          nextUrl := nextUrl design_request |} =
     Some (Response_redirect (new_URL "/dashboard" (nextUrl design_request)))).
Proof.
  apply (authorized_agrees_with_middleware
           (auth design_request) (nextUrl design_request)).
  reflexivity.
Defined.

(** X6: a session object without [user] counts as signed in for the
    middleware and for [LoginPage] but not for [authorized]: the middleware
    lets it into the dashboard where [authorized] denies it, and
    [LoginPage] sends it to "/dashboard" although [authorized] lets it
    stay on the login path. *)
Theorem userless_session_splits_guards (s : Session) (url : URL) :
  user s = None ->
  (String.prefix "/dashboard" (pathname url) = true ->
   middleware {| auth := Some s; nextUrl := url |} = None /\
   authorized (Some s) url = Authorized_bool false) /\
  (pathname url = "/login" ->
   authorized (Some s) url = Authorized_bool true /\
   LoginPage (Some s) = Redirect "/dashboard" /\
   authorized (Some s) (new_URL "/dashboard" url) = Authorized_bool false).
Proof.
  intros Hu. split.
  - intros Hd. unfold middleware, authorized, auth_user_truthy. simpl.
    rewrite Hd, Hu, (dashboard_not_login _ Hd). split; reflexivity.
  - intros Hl. unfold authorized, auth_user_truthy.
    rewrite Hu, Hl. repeat split.
Qed.

Lemma userless_session_splits_guards_witness :
  (String.prefix "/dashboard" (pathname login_url) = true ->
   middleware {| auth := Some userless_session; nextUrl := login_url |} = None /\
   authorized (Some userless_session) login_url = Authorized_bool false) /\
  (pathname login_url = "/login" ->
   authorized (Some userless_session) login_url = Authorized_bool true /\
   LoginPage (Some userless_session) = Redirect "/dashboard" /\
   authorized (Some userless_session) (new_URL "/dashboard" login_url) =
     Authorized_bool false).
Proof.
  apply (userless_session_splits_guards userless_session login_url).
  reflexivity.
Defined.

(** X7: on the login path the page and the middleware decide alike: the
    middleware lets the request through exactly when [LoginPage] renders
    the form, so the page's own redirect never fires behind the
    middleware, and both redirect to the same place. *)
Theorem LoginPage_behind_middleware (req : NextAuthRequest) :
  pathname (nextUrl req) = "/login" ->
  (middleware req = None <-> LoginPage (auth req) = Render) /\
  (forall u : URL,
     middleware req = Some (Response_redirect u) ->
     LoginPage (auth req) = Redirect (pathname u)).
Proof.
  intros Hl. unfold middleware, LoginPage. rewrite Hl.
  destruct (auth_truthy (auth req)); simpl; split.
  - split; discriminate.
  - intros u [= <-]. reflexivity.
  - split; reflexivity.
  - intros u; discriminate.
Qed.

Lemma LoginPage_behind_middleware_witness :
  (middleware {| auth := None; nextUrl := login_url |} = None <->
   LoginPage None = Render) /\
  (forall u : URL,
     middleware {| auth := None; nextUrl := login_url |} =
       Some (Response_redirect u) ->
     LoginPage None = Redirect (pathname u)).
Proof.
  apply (LoginPage_behind_middleware {| auth := None; nextUrl := login_url |}).
  reflexivity.
Defined.

(** ** The [jwt] and [session] callbacks *)

Lemma jwt_refresh_iter (n : nat) (token : JWT) :
  Nat.iter n jwt_refresh token = token.
Proof.
  induction n as [|n IH]; [reflexivity|].
  simpl. rewrite IH. reflexivity.
Qed.

(** X8: after [jwt] has seen the user at sign-in, any number of later calls
    without a user keep [token.sub] equal to the user's id and the other
    claims as they were; when that id is a non-empty string, [session]
    copies it into [session.user.id] and keeps the e-mail. *)
Theorem sign_in_id_reaches_session
    (token : JWT) (usr su : User) (s : Session) (n : nat) :
  user s = Some su ->
  string_truthy (user_id usr) = true ->
  Nat.iter n jwt_refresh (jwt token (Some usr)) =
    {| jwt_name := jwt_name token; jwt_email := jwt_email token;
       jwt_picture := jwt_picture token; sub := user_id usr |} /\
  user (session s (Nat.iter n jwt_refresh (jwt token (Some usr)))) =
    Some {| user_id := user_id usr; user_email := user_email su |}.
Proof.
  intros Hs Hid. rewrite jwt_refresh_iter.
  split; [reflexivity|].
  unfold session. simpl. rewrite Hid, Hs. reflexivity.
Qed.

Lemma sign_in_id_reaches_session_witness :
  Nat.iter 3 jwt_refresh (jwt sample_token (Some sample_user)) =
    {| jwt_name := jwt_name sample_token;
       jwt_email := jwt_email sample_token;
       jwt_picture := jwt_picture sample_token;
       sub := user_id sample_user |} /\
  user (session sample_session
          (Nat.iter 3 jwt_refresh (jwt sample_token (Some sample_user)))) =
    Some {| user_id := user_id sample_user; user_email := None |}.
Proof.
  apply (sign_in_id_reaches_session sample_token sample_user
           {| user_id := Some "42"; user_email := None |} sample_session 3);
    reflexivity.
Defined.

Lemma session_user_presence (s : Session) (token : JWT) :
  auth_user_truthy (Some (session s token)) = auth_user_truthy (Some s).
Proof.
  unfold session, auth_user_truthy.
  destruct (string_truthy (sub token)); [|reflexivity].
  destruct (user s) eqn:Hu; simpl; [reflexivity|].
  rewrite Hu. reflexivity.
Qed.

(** X9: [session] touches nothing but [user.id]: it neither creates nor
    drops the user, the e-mail shown by [SideNav] is the same before and
    after, and [authorized] decides the same on either session. *)
Theorem session_only_sets_id (s : Session) (token : JWT) (url : URL) :
  auth_user_truthy (Some (session s token)) = auth_user_truthy (Some s) /\
  SideNav (Some (session s token)) = SideNav (Some s) /\
  authorized (Some (session s token)) url = authorized (Some s) url.
Proof.
  split; [apply session_user_presence|]. split.
  - unfold session, SideNav.
    destruct (string_truthy (sub token)); [|reflexivity].
    destruct (user s) eqn:Hu; simpl; [reflexivity|].
    rewrite Hu. reflexivity.
  - unfold authorized. rewrite session_user_presence. reflexivity.
Qed.

(** X10: [session] never blanks an id: when [token.sub] is missing or the
    empty string the session comes back unchanged, the id it writes is
    always a non-empty string, and running it twice with the same token
    changes nothing more. *)
Theorem session_id_edge_cases (s : Session) (token : JWT) :
  (string_truthy (sub token) = false -> session s token = s) /\
  (forall usr : User,
     user (session s token) = Some usr ->
     user s = Some usr \/
     (user_id usr = sub token /\ string_truthy (user_id usr) = true)) /\
  session (session s token) token = session s token.
Proof.
  unfold session.
  destruct (string_truthy (sub token)) eqn:Ht.
  - split; [discriminate|]. split.
    + intros usr. destruct (user s) as [su|] eqn:Hu; simpl.
      * intros [= <-]. right. simpl. auto.
      * rewrite Hu. discriminate.
    + destruct (user s) as [su|] eqn:Hu; simpl; [reflexivity|].
      rewrite Hu. reflexivity.
  - split; [reflexivity|]. split; [|reflexivity].
    intros usr Hu. left. exact Hu.
Qed.

(** ** Who sees the sign-out block *)

(** X11: on a page of the dashboard, [authorized] lets the request through
    exactly when [SideNav] renders the "Signed in as" block with the
    sign-out button. *)
Theorem authorized_dashboard_iff_SideNav_block
    (a : option Session) (url : URL) :
  String.prefix "/dashboard" (pathname url) = true ->
  (authorized a url = Authorized_bool true <->
   exists shown : option string, SideNav a = Some shown).
Proof.
  intros Hd. unfold authorized, auth_user_truthy, SideNav. rewrite Hd.
  destruct a as [s|]; [destruct (user s) as [usr|]|]; split;
    try discriminate; try (intros [? ?]; discriminate); eauto.
Qed.

Lemma authorized_dashboard_iff_SideNav_block_witness :
  authorized (Some sample_session) (nextUrl invoices_request) =
    Authorized_bool true <->
  exists shown : option string, SideNav (Some sample_session) = Some shown.
Proof.
  apply (authorized_dashboard_iff_SideNav_block
           (Some sample_session) (nextUrl invoices_request)).
  reflexivity.
Defined.

(** ** Runs of header events *)

Lemma run_cons (e : HeaderEvent) (es : list HeaderEvent) (st : HeaderState) :
  run (e :: es) st = run es (handle e st).
Proof. reflexivity. Qed.

Lemma isOpen_handle (e : HeaderEvent) (st : HeaderState) :
  isOpen (handle e st) =
  match e with
  | MenuButtonClick => true
  | DisclosureButtonClick _ => isOpen st
  | _ => false
  end.
Proof.
  destruct e; try reflexivity. apply isOpen_toggleSection.
Qed.

(** X12: after a run of events the dialog is open exactly when the menu
    button was clicked at some point and none of the close button, Escape
    or a backdrop click came after it, or when it was open at the start
    and nothing in the run closed it. *)
Theorem isOpen_after_run (es : list HeaderEvent) (st : HeaderState) :
  isOpen (run es st) = true <->
  (exists pre post : list HeaderEvent,
     es = (pre ++ MenuButtonClick :: post)%list /\
     forallb (fun e => negb (is_close_trigger e)) post = true) \/
  (isOpen st = true /\
   forallb (fun e => negb (is_close_trigger e)) es = true).
Proof.
  revert st. induction es as [|e es IH]; intros st.
  - simpl. split.
    + intros H. right. auto.
    + intros [(pre & post & Hes & _)|[H _]]; [|exact H].
      destruct pre; discriminate.
  - rewrite run_cons, IH, isOpen_handle. split.
    + intros [(pre & post & -> & Hpost)|[He Hes]].
      * left. exists (e :: pre), post. auto.
      * destruct e; try discriminate.
        -- left. exists [], es. auto.
        -- right. simpl. auto.
    + intros [(pre & post & Hes & Hpost)|[Hst Hes]].
      * destruct pre as [|e' pre]; simpl in Hes; injection Hes as -> ->.
        -- right. auto.
        -- left. exists pre, post. auto.
      * simpl in Hes. apply andb_true_iff in Hes as [He Hes].
        right. destruct e; try discriminate; auto.
Qed.

(** ** Redirects of the [authorized] callback and follow-up requests *)

(** X13: [authorized] answers with a response only for a signed-in user
    outside the dashboard; the response is a redirect to "/dashboard" on
    the origin of the request, without query string, and never to the
    requested path itself. *)
Theorem authorized_redirect_location
    (a : option Session) (url u : URL) :
  authorized a url = Authorized_response (Response_redirect u) ->
  auth_user_truthy a = true /\
  String.prefix "/dashboard" (pathname url) = false /\
  u = {| origin := origin url; pathname := "/dashboard"; search := "" |} /\
  pathname u <> pathname url.
Proof.
  unfold authorized.
  destruct (String.prefix "/dashboard" (pathname url)) eqn:Hd,
    (auth_user_truthy a); try discriminate.
  intros [= <-]. repeat split. simpl. intros Heq.
  rewrite <- Heq in Hd. discriminate.
Qed.

Lemma authorized_redirect_location_witness :
  auth_user_truthy (Some sample_session) = true /\
  String.prefix "/dashboard" (pathname home_url) = false /\
  new_URL "/dashboard" home_url =
    {| origin := origin home_url; pathname := "/dashboard"; search := "" |} /\
  pathname (new_URL "/dashboard" home_url) <> pathname home_url.
Proof.
  apply (authorized_redirect_location (Some sample_session) home_url
           (new_URL "/dashboard" home_url)).
  reflexivity.
Defined.

(** X14: whenever the exported middleware answers a matched route with a
    redirect, whether [authorized] or the callback issued it, the location
    is itself a matched route, and the follow-up request with the same
    session passes without a further redirect. *)
Theorem run_middleware_redirect_settles (req : NextAuthRequest) (u : URL) :
  run_middleware req = Some (Response_redirect u) ->
  matcher (pathname u) = true /\
  run_middleware {| auth := auth req; nextUrl := u |} = None.
Proof.
  unfold run_middleware.
  destruct (matcher (pathname (nextUrl req))); [|discriminate].
  unfold exported_middleware, authorized, middleware, auth_user_truthy.
  destruct (auth req) as [[[usr|]]|];
    destruct (String.prefix "/dashboard" (pathname (nextUrl req))),
      (String.prefix "/login" (pathname (nextUrl req)));
    simpl; try discriminate; intros [= <-]; split; reflexivity.
Qed.

Lemma run_middleware_redirect_settles_witness :
  matcher (pathname (new_URL "/dashboard" (nextUrl design_request))) = true /\
  run_middleware
    {| auth := auth design_request;
       nextUrl := new_URL "/dashboard" (nextUrl design_request) |} = None.
Proof.
  apply (run_middleware_redirect_settles design_request
           (new_URL "/dashboard" (nextUrl design_request))).
  reflexivity.
Defined.

(** ** The exported middleware as a decision *)

Lemma exported_middleware_guard (req : NextAuthRequest) :
  exported_middleware req = response_of (nextUrl req) (guard req).
Proof.
  unfold exported_middleware, guard, authorized.
  destruct (String.prefix "/dashboard" (pathname (nextUrl req))),
    (auth_user_truthy (auth req)); try apply middleware_decide.
  reflexivity.
Qed.

(** On a path outside the dashboard [authorized] decides for a signed-in
    user, and the callback otherwise. *)
Lemma guard_outside (req : NextAuthRequest) :
  String.prefix "/dashboard" (pathname (nextUrl req)) = false ->
  guard req =
    if auth_user_truthy (auth req) then RedirectAwayFromLogin "/dashboard"
    else if auth_truthy (auth req)
            && String.prefix "/login" (pathname (nextUrl req))
         then RedirectAwayFromLogin "/dashboard"
         else Allow.
Proof.
  intros Hout. unfold guard, authorized, decide. rewrite Hout.
  destruct (auth_user_truthy (auth req)); [reflexivity|].
  destruct (auth_truthy (auth req)),
    (String.prefix "/login" (pathname (nextUrl req))); reflexivity.
Qed.

Lemma guard_inside (req : NextAuthRequest) :
  String.prefix "/dashboard" (pathname (nextUrl req)) = true ->
  guard req =
    if auth_truthy (auth req) then Allow else DenyRedirectToLogin "/login".
Proof.
  intros Hin. unfold guard, authorized, decide.
  rewrite Hin, (dashboard_not_login _ Hin).
  destruct (auth_user_truthy (auth req)), (auth_truthy (auth req));
    reflexivity.
Qed.

(** C1 as the spec words it fails: a signed-in request for the design page,
    which is neither under "/dashboard" nor the login path, is redirected
    to "/dashboard" by the exported middleware. *)
Lemma guard_design_signed_in_not_allow :
  String.prefix "/dashboard" (pathname (nextUrl design_request)) = false /\
  pathname (nextUrl design_request) <> "/login" /\
  guard design_request = RedirectAwayFromLogin "/dashboard" /\
  guard design_request <> Allow /\
  exported_middleware design_request =
    Some (Response_redirect (new_URL "/dashboard" (nextUrl design_request))).
Proof.
  repeat split; try reflexivity; discriminate.
Qed.

(** C1 (amended): on every path that does not begin with "/dashboard", the
    login path included, the guard returns [Allow] when no session is
    present; when a signed-in user is present it returns
    [RedirectAwayFromLogin "/dashboard"] instead.  [Allow] is returned
    exactly when no user is signed in and the request is not one with a
    session object on a path under "/login". *)
Theorem guard_outside_allow (req : NextAuthRequest) :
  String.prefix "/dashboard" (pathname (nextUrl req)) = false ->
  (auth req = None -> guard req = Allow) /\
  (auth_user_truthy (auth req) = true ->
   guard req = RedirectAwayFromLogin "/dashboard") /\
  (guard req = Allow <->
   auth_user_truthy (auth req) = false /\
   auth_truthy (auth req)
   && String.prefix "/login" (pathname (nextUrl req)) = false).
Proof.
  intros Hout. rewrite (guard_outside req Hout). split; [|split].
  - intros ->. reflexivity.
  - intros ->. reflexivity.
  - destruct (auth_user_truthy (auth req)).
    + split; [discriminate | intros [? _]; discriminate].
    + destruct (auth_truthy (auth req)
                && String.prefix "/login" (pathname (nextUrl req)));
        split; auto; try discriminate. intros [_ ?]; discriminate.
Qed.

Lemma guard_outside_allow_witness :
  (auth design_request = None -> guard design_request = Allow) /\
  (auth_user_truthy (auth design_request) = true ->
   guard design_request = RedirectAwayFromLogin "/dashboard") /\
  (guard design_request = Allow <->
   auth_user_truthy (auth design_request) = false /\
   auth_truthy (auth design_request)
   && String.prefix "/login" (pathname (nextUrl design_request)) = false).
Proof.
  apply (guard_outside_allow design_request). reflexivity.
Defined.

(** C3 as the spec words it fails: the redirect away from login is issued
    for a signed-in request for the home page as well. *)
Lemma guard_home_signed_in_redirects :
  pathname (nextUrl home_request) <> "/login" /\
  guard home_request = RedirectAwayFromLogin "/dashboard" /\
  exported_middleware home_request =
    Some (Response_redirect (new_URL "/dashboard" (nextUrl home_request))).
Proof.
  repeat split; try reflexivity; discriminate.
Qed.

(** C3 (amended): on the login path the guard returns
    [RedirectAwayFromLogin "/dashboard"] when a session is present and
    [Allow] when none is; the redirect is not confined to the login path:
    the guard returns it exactly on the paths outside "/dashboard" when a
    user is signed in, or when a session object is present and the path
    begins with "/login". *)
Theorem guard_login (req : NextAuthRequest) :
  (guard req = RedirectAwayFromLogin "/dashboard" <->
   String.prefix "/dashboard" (pathname (nextUrl req)) = false /\
   (auth_user_truthy (auth req) = true \/
    auth_truthy (auth req) = true /\
    String.prefix "/login" (pathname (nextUrl req)) = true)) /\
  (pathname (nextUrl req) = "/login" ->
   (auth_truthy (auth req) = true ->
    guard req = RedirectAwayFromLogin "/dashboard") /\
   (auth req = None -> guard req = Allow)).
Proof.
  split.
  - destruct (String.prefix "/dashboard" (pathname (nextUrl req))) eqn:Hd.
    + rewrite (guard_inside req Hd).
      destruct (auth_truthy (auth req)); split;
        try discriminate; intros [? _]; discriminate.
    + rewrite (guard_outside req Hd).
      destruct (auth_user_truthy (auth req)); [split; auto|].
      destruct (auth_truthy (auth req)),
        (String.prefix "/login" (pathname (nextUrl req))); simpl;
        split; auto; try discriminate;
        intros [_ [?|[? ?]]]; discriminate.
  - intros Hl.
    assert (Hd : String.prefix "/dashboard" (pathname (nextUrl req)) = false)
      by (rewrite Hl; reflexivity).
    rewrite (guard_outside req Hd), Hl. split.
    + intros ->. destruct (auth_user_truthy (auth req)); reflexivity.
    + intros ->. reflexivity.
Qed.

(** ** Exceptions *)

(** What the optional chaining in [authorized] guards against. *)
Example member_user_null_throws : member_user None = Throw TypeError.
Proof. reflexivity. Qed.

Lemma optional_member_user_normal (a : option Session) :
  optional_member_user a =
  Normal (match a with Some s => user s | None => None end).
Proof. destruct a; reflexivity. Qed.

Lemma authorized_eval_normal (a : option Session) (url : URL) :
  authorized_eval a url = Normal (authorized a url).
Proof.
  unfold authorized_eval, authorized, auth_user_truthy.
  rewrite optional_member_user_normal. cbn [bind].
  destruct a as [s|]; [destruct (user s)|];
    destruct (String.prefix "/dashboard" (pathname url)); reflexivity.
Qed.

Lemma middleware_eval_normal (req : NextAuthRequest) :
  middleware_eval req = Normal (middleware req).
Proof.
  unfold middleware_eval, middleware.
  destruct (String.prefix "/dashboard" (pathname (nextUrl req))
            && negb (auth_truthy (auth req)));
    [reflexivity|].
  destruct (String.prefix "/login" (pathname (nextUrl req))
            && auth_truthy (auth req)); reflexivity.
Qed.

(** C5: the guard has no error outcome.  Evaluated with exceptions, the
    exported middleware completes normally on every request, a [null]
    session included, and its answer is one of the three decisions;
    [decide] yields one of the three for every boolean and every path; a
    request without a session is decided as [sessionPresent = false]. *)
Theorem guard_never_throws
    (req : NextAuthRequest) (sessionPresent : bool) (path : string) :
  exported_middleware_eval req =
    Normal (response_of (nextUrl req) (guard req)) /\
  (guard req = Allow \/
   guard req = DenyRedirectToLogin "/login" \/
   guard req = RedirectAwayFromLogin "/dashboard") /\
  (decide sessionPresent path = Allow \/
   decide sessionPresent path = DenyRedirectToLogin "/login" \/
   decide sessionPresent path = RedirectAwayFromLogin "/dashboard") /\
  exported_middleware_eval {| auth := None; nextUrl := nextUrl req |} =
    Normal (response_of (nextUrl req)
              (decide false (pathname (nextUrl req)))).
Proof.
  assert (Heval : forall r : NextAuthRequest,
             exported_middleware_eval r = Normal (exported_middleware r)).
  { intros r. unfold exported_middleware_eval, exported_middleware.
    rewrite authorized_eval_normal. cbn [bind].
    destruct (authorized (auth r) (nextUrl r));
      [apply middleware_eval_normal | reflexivity]. }
  split; [|split; [|split]].
  - rewrite Heval, exported_middleware_guard. reflexivity.
  - destruct (String.prefix "/dashboard" (pathname (nextUrl req))) eqn:Hd.
    + rewrite (guard_inside req Hd).
      destruct (auth_truthy (auth req)); auto.
    + rewrite (guard_outside req Hd).
      destruct (auth_user_truthy (auth req)); auto.
      destruct (auth_truthy (auth req)
                && String.prefix "/login" (pathname (nextUrl req))); auto.
  - unfold decide.
    destruct (String.prefix "/dashboard" path), (String.prefix "/login" path),
      sessionPresent; simpl; auto.
  - rewrite Heval. unfold exported_middleware, authorized. simpl.
    destruct (String.prefix "/dashboard" (pathname (nextUrl req)));
      f_equal;
      apply (middleware_decide {| auth := None; nextUrl := nextUrl req |}).
Qed.

(** ** Closing the dialog and the sections *)

(** C10 as the spec words it fails: a section expanded while the menu is
    open is collapsed by [closeMenu], and still collapsed when the menu is
    opened again. *)
Lemma closeMenu_collapses_expanded_section :
  isOpen (toggleSection "Product" (openMenu Header_mount)) = true /\
  sections (toggleSection "Product" (openMenu Header_mount)) !! "Product" =
    Some true /\
  sections (closeMenu (toggleSection "Product" (openMenu Header_mount)))
    !! "Product" = Some false /\
  sections (openMenu (closeMenu
              (toggleSection "Product" (openMenu Header_mount))))
    !! "Product" = Some false.
Proof.
  repeat split; vm_compute; reflexivity.
Qed.

(** C10 (amended): [toggleSection] leaves [isOpen] unchanged and [openMenu]
    on an open menu leaves the section flags unchanged, but [closeMenu]
    does not: the sections live inside the dialog, so closing it leaves
    every section collapsed, and they are still collapsed after the next
    [openMenu]; a remount resets both to the defaults, menu closed and
    "Product" collapsed. *)
Theorem closeMenu_resets_sections
    (st : HeaderState) (id : string) :
  isOpen (toggleSection id st) = isOpen st /\
  (isOpen st = true -> sections (openMenu st) = sections st) /\
  sections (closeMenu st) !! id =
    (fun _ : bool => false) <$> (sections st !! id) /\
  sections (openMenu (closeMenu st)) !! id =
    (fun _ : bool => false) <$> (sections st !! id) /\
  remount st = Header_mount /\
  isOpen Header_mount = false /\
  sections Header_mount = {["Product" := false]}.
Proof.
  split; [apply isOpen_toggleSection|].
  split.
  { intros Hopen. unfold openMenu.
    rewrite sections_setMobileMenuOpen, Hopen. reflexivity. }
  split; [apply collapse_lookup|].
  split; [|repeat split].
  unfold openMenu, closeMenu. rewrite !sections_setMobileMenuOpen.
  simpl. rewrite collapse_collapse. apply collapse_lookup.
Qed.
